(** * Retrieval-augmented question answering: the notebook's two functions

    A shallow embedding of [retrieve_texts] and [answer_query] from
    [RAG-and-embeddings-solution.ipynb].  The embedding model, the FAISS
    index and the hosted chat-completion service are external: they appear
    as records of operations that either return a value or raise.  The
    index and the chunk list are Python objects held by the process; they
    live in a store that every operation threads through, so that "this
    call did not write to them" is a statement about the final store. *)

From Stdlib Require Import ZArith Ascii String.
From stdpp Require Import list strings sorting.

Local Open Scope Z_scope.

(** ** Exceptions and results *)

(** The exceptions that matter here: the [IndexError] of a subscript out
    of range, and whatever an external library raises. *)
Inductive exception : Type :=
  | IndexError
  | ExternalError (origin : string).

Inductive result (A : Type) : Type :=
  | Ok (a : A)
  | Raise (e : exception).
Arguments Ok {A} a.
Arguments Raise {A} e.

(** ** Python primitives *)

(** The line feed of the source's [\n]. *)
Definition LF : string := String "010"%char EmptyString.

(** [l[i]] on a list (or on the first axis of an array): a negative
    subscript counts from the end, anything still outside [0, len) raises
    [IndexError]. *)
Definition py_index (n i : Z) : Z := if i <? 0 then i + n else i.

Definition py_getitem {A} (l : list A) (i : Z) : result A :=
  let n := Z.of_nat (length l) in
  let j := py_index n i in
  if (j <? 0) || (n <=? j) then Raise IndexError
  else match l !! Z.to_nat j with
       | Some x => Ok x
       | None => Raise IndexError
       end.

(** [sep.join(l)]. *)
Fixpoint str_join (sep : string) (l : list string) : string :=
  match l with
  | [] => ""
  | x :: l' =>
      match l' with
      | [] => x
      | _ :: _ => x +:+ sep +:+ str_join sep l'
      end
  end.

(** ** The chat-completion interface *)

Record Message : Type := { role : string; content : string }.

Record ChatRequest : Type :=
  { api_key : string; messages : list Message; model_id : string }.

(** A completion choice: [choice.message.content]. *)
Record Choice : Type := { message : Message }.

Record ChatCompletion : Type := { choices : list Choice }.

Section Pipeline.

(** What [model.encode] returns and what a distance is (numpy arrays of
    floats) is never inspected by the code. *)
Context {Embedding Dist : Type}.

Record SentenceTransformer : Type :=
  { encode : list string → result Embedding }.

(** [index.search(x, k)] returns the pair [(distances, indices)], two
    arrays with one row per query vector.  A search reads the index. *)
Record FaissIndex : Type :=
  { search : Embedding → Z → result (list (list Dist) * list (list Z)) }.

(** The objects the process holds, and the requests that have left it. *)
Record Store : Type :=
  { index : FaissIndex;
    token_split_texts : list string;
    sent : list ChatRequest }.

(** ** Computations: a store is threaded through, an exception stops the
    computation where it is raised. *)
Definition M (A : Type) : Type := Store → result A * Store.

#[export] Instance M_ret : MRet M := λ A a s, (Ok a, s).

#[export] Instance M_bind : MBind M := λ A B f m s,
  match m s with
  | (Ok a, s') => f a s'
  | (Raise e, s') => (Raise e, s')
  end.

(** The outcome of a call that touches nothing in the store. *)
Definition call {A} (r : result A) : M A := λ s, (r, s).

(** [index.search(x, k)] on the index of the store. *)
Definition index_search (x : Embedding) (k : Z)
  : M (list (list Dist) * list (list Z)) :=
  λ s, (search (index s) x k, s).

(** [len(token_split_texts)] and [token_split_texts[i]]. *)
Definition texts_len : M Z :=
  λ s, (Ok (Z.of_nat (length (token_split_texts s))), s).

Definition texts_getitem (i : Z) : M string :=
  λ s, (py_getitem (token_split_texts s) i, s).

(** [[x for x in l if p(x)]] and [[f(x) for x in l]]. *)
Fixpoint comp_filter {A} (p : A → M bool) (l : list A) : M (list A) :=
  match l with
  | [] => mret []
  | x :: l' =>
      b ← p x;
      r ← comp_filter p l';
      mret (if b : bool then x :: r else r)
  end.

Fixpoint comp_map {A B} (f : A → M B) (l : list A) : M (list B) :=
  match l with
  | [] => mret []
  | x :: l' =>
      y ← f x;
      r ← comp_map f l';
      mret (y :: r)
  end.

(** ** [retrieve_texts]

    The parameters [index] and [token_split_texts] of the source are
    references to the two objects of the store. *)
Definition retrieve_texts (query : string) (k : Z)
    (model : SentenceTransformer) : M (list string * list (list Dist)) :=
  query_embedding ← call (encode model [query]);
  '(distances, indices) ← index_search query_embedding k;
  row ← call (py_getitem indices 0);
  valid_indices ←
    comp_filter (λ i, n ← texts_len; mret (i <? n)) row;
  retrieved_texts ← comp_map texts_getitem valid_indices;
  mret (retrieved_texts, distances).

(** The notebook's global [model] and the hosted service behind
    [client.chat.completions.create]. *)
Variable model : SentenceTransformer.
Variable groq : ChatRequest → result ChatCompletion.

(** The request leaves the process, then the service answers or fails. *)
Definition chat_completions_create (key : string) (msgs : list Message)
    (mdl : string) : M ChatCompletion :=
  λ s,
    let req := {| api_key := key; messages := msgs; model_id := mdl |} in
    (groq req,
     {| index := index s;
        token_split_texts := token_split_texts s;
        sent := sent s ++ [req] |}).

(** ** [answer_query]

    [index] and [texts] are again the two objects of the store; [model] is
    the global one, as in the source. *)
Definition answer_query (query : string) (k : Z) (groq_api_key : string)
    : M string :=
  '(retrieved_texts, _) ← retrieve_texts query k model;
  let context := str_join (LF +:+ LF) retrieved_texts in
  let prompt :=
    "Answer the following question using the provided context. "
    +:+ "Explain it as if you are explaining it to a 5 year old." +:+ LF +:+ LF
    +:+ "Context:" +:+ LF +:+ context +:+ LF +:+ LF
    +:+ "Question: " +:+ query +:+ LF +:+ "Answer:" in
  let messages := [ {| role := "system"; content := prompt |} ] in
  llm ← chat_completions_create groq_api_key messages
          "llama-3.3-70b-versatile";
  choice ← call (py_getitem (choices llm) 0);
  let answer := content (message choice) in
  mret answer.

End Pipeline.

Arguments SentenceTransformer : clear implicits.
Arguments FaissIndex : clear implicits.
Arguments Store : clear implicits.

(** ** A small concrete world *)
Module Demo.

Definition model : SentenceTransformer unit :=
  {| encode := λ _, Ok tt |}.

(** An index that answers every search with the same row. *)
Definition fixed_index (ds : list Z) (ps : list Z) : FaissIndex unit Z :=
  {| search := λ _ _, Ok ([ds], [ps]) |}.

Definition store (ds ps : list Z) (texts : list string) : Store unit Z :=
  {| index := fixed_index ds ps; token_split_texts := texts; sent := [] |}.

Definition reply (txts : list string) : ChatRequest → result ChatCompletion :=
  λ _, Ok {| choices :=
               (λ t, {| message := {| role := "assistant"; content := t |} |})
                 <$> txts |}.

(** Three chunks; the search reports positions 1, 5 and 0. *)
Definition three_chunks : Store unit Z :=
  store [1; 2; 3] [1; 5; 0] ["a"; "b"; "c"].

(** Two chunks and an index of two vectors asked for three neighbours:
    FAISS pads the row with the position -1. *)
Definition padded_row : Store unit Z :=
  store [1; 5; 999] [1; 0; -1] ["alpha"; "beta"].

(** No chunk and an empty index asked for one neighbour. *)
Definition nothing_loaded : Store unit Z := store [999] [-1] [].

End Demo.

(** ** Vocabulary of the statements *)

(** The positions that pass the test of the first comprehension. *)
Definition valid_indices (n : Z) (row : list Z) : list Z :=
  filter (λ i, i < n) row.

(** The chunks at a list of subscripts, or the first exception. *)
Fixpoint gather {A} (l : list A) (ps : list Z) : result (list A) :=
  match ps with
  | [] => Ok []
  | i :: ps' =>
      match py_getitem l i with
      | Raise e => Raise e
      | Ok x =>
          match gather l ps' with
          | Raise e => Raise e
          | Ok r => Ok (x :: r)
          end
      end
  end.

(** An index that refuses a search for no neighbour or for a negative
    number of neighbours, as the FAISS search does. *)
Definition rejects_nonpositive_k {Embedding Dist}
    (idx : FaissIndex Embedding Dist) : Prop :=
  ∀ x k, k ≤ 0 → ∃ e, search idx x k = Raise e.

(** The number of entries of an array. *)
Definition entries {A} (a : list (list A)) : nat := length (concat a).

Definition blank_line : string := LF +:+ LF.

(** The instructional template with its two holes. *)
Definition instructional_template (context query : string) : string :=
  "Answer the following question using the provided context. Explain it as if you are explaining it to a 5 year old."
  +:+ blank_line +:+ "Context:" +:+ LF +:+ context +:+ blank_line
  +:+ "Question: " +:+ query +:+ LF +:+ "Answer:".

(** The request that carries a prompt as one system message. *)
Definition system_request (key prompt : string) : ChatRequest :=
  {| api_key := key;
     messages := [ {| role := "system"; content := prompt |} ];
     model_id := "llama-3.3-70b-versatile" |}.

(** The request made for a list of retrieved chunks. *)
Definition request_for (key : string) (texts : list string) (q : string)
    : ChatRequest :=
  system_request key (instructional_template (str_join blank_line texts) q).

(** The store after a request has left. *)
Definition after_request {Embedding Dist} (s : Store Embedding Dist)
    (req : ChatRequest) : Store Embedding Dist :=
  {| index := index s;
     token_split_texts := token_split_texts s;
     sent := sent s ++ [req] |}.

(** [len(token_split_texts)] in a store. *)
Definition chunk_count {Embedding Dist} (s : Store Embedding Dist) : Z :=
  Z.of_nat (length (token_split_texts s)).

(** What a call of [retrieve_texts] comes to, stage by stage. *)
Definition retrieve_outcome {Embedding Dist} (query : string) (k : Z)
    (model : SentenceTransformer Embedding) (s : Store Embedding Dist)
    : result (list string * list (list Dist)) :=
  match encode model [query] with
  | Raise e => Raise e
  | Ok x =>
      match search (index s) x k with
      | Raise e => Raise e
      | Ok (Ds, Is) =>
          match py_getitem Is 0 with
          | Raise e => Raise e
          | Ok row =>
              match gather (token_split_texts s)
                      (valid_indices (chunk_count s) row) with
              | Raise e => Raise e
              | Ok ts => Ok (ts, Ds)
              end
          end
      end
  end.

(** ** The notebook's test cells *)

(** The key cell of the notebook. *)
Definition groq_api_key : string := "xxx".

(** What [print(a, b)] writes for two strings: a blank between them, a
    line feed at the end. *)
Definition py_print (a b : string) : string := a +:+ " " +:+ b +:+ LF.

(** A test cell: the query is answered with [k=5] and the answer printed
    under a heading; the value is the text the cell prints. *)
Definition test_cell {Embedding Dist} (model : SentenceTransformer Embedding)
    (groq : ChatRequest → result ChatCompletion) (query : string)
    : @M Embedding Dist string :=
  answer ← answer_query model groq query 5 groq_api_key;
  mret (py_print ("LLM Answer:" +:+ LF) answer).

(** The length of the template around its two holes. *)
Definition template_overhead : nat :=
  Eval cbv in String.length (instructional_template "" "").

(** More concrete worlds. *)
Module World.

(** An embedding model that is down. *)
Definition no_model : SentenceTransformer unit :=
  {| encode := λ _, Raise (ExternalError "encode") |}.

(** An index whose search fails. *)
Definition no_search : Store unit Z :=
  {| index := {| search := λ _ _, Raise (ExternalError "search") |};
     token_split_texts := ["a"; "b"; "c"];
     sent := [] |}.

(** A chat service that is down. *)
Definition outage : ChatRequest → result ChatCompletion :=
  λ _, Raise (ExternalError "groq").

(** Every reported position is a position of the chunk list; one is
    reported twice. *)
Definition all_valid : Store unit Z :=
  Demo.store [1; 2; 3] [2; 0; 2] ["a"; "b"; "c"].

(** An index built over more chunks than were loaded. *)
Definition oversized : Store unit Z :=
  Demo.store [1; 2] [4; 3] ["a"; "b"; "c"].

(** The positions of [Demo.three_chunks] at other distances, after an
    earlier request. *)
Definition other_distances : Store unit Z :=
  {| index := Demo.fixed_index [7; 8; 9] [1; 5; 0];
     token_split_texts := ["a"; "b"; "c"];
     sent := [ system_request "old" "earlier" ] |}.

(** An index of [n] vectors that behaves at its interface as a FAISS index
    does: a search for [k ≤ 0] neighbours is refused; a search for [k > 0]
    reports one row of [k] positions, stored positions first, padded with
    [-1] when [k] exceeds [n].  The distance of a hit stands at its rank. *)
Definition flat_index (n : nat) : FaissIndex unit Z :=
  {| search := λ _ k,
       if k <=? 0 then Raise (ExternalError "AssertionError")
       else
         let found := take (Z.to_nat k) (Z.of_nat <$> seq 0 n) in
         let pad := replicate (Z.to_nat k - length found) (-1) in
         Ok ([Z.of_nat <$> seq 0 (Z.to_nat k)], [found ++ pad]) |}.

(** Three chunks behind such an index of three vectors. *)
Definition flat : Store unit Z :=
  {| index := flat_index 3;
     token_split_texts := ["a"; "b"; "c"];
     sent := [] |}.

End World.

(** ** Running the comprehensions *)
Section Runs.
Context {Embedding Dist : Type}.
Implicit Types (s : Store Embedding Dist) (row ps : list Z).
Implicit Types (model : SentenceTransformer Embedding).

Lemma bind_run {A B} (m : M A) (f : A → M B) s :
  (m ≫= f) s
  = match m s with
    | (Ok a, s') => f a s'
    | (Raise e, s') => (Raise e, s')
    end.
Proof. reflexivity. Qed.

Lemma ret_run {A} (a : A) s : (mret a : M A) s = (Ok a, s).
Proof. reflexivity. Qed.

Lemma texts_len_run s : texts_len s = (Ok (chunk_count s), s).
Proof. reflexivity. Qed.

Lemma comp_filter_run s row :
  comp_filter (λ i, n ← texts_len; mret (i <? n)) row s
  = (Ok (valid_indices (chunk_count s) row), s).
Proof.
  induction row as [|i row IH]; [reflexivity|].
  cbn [comp_filter]. rewrite !bind_run, texts_len_run, ret_run.
  rewrite bind_run, IH, ret_run.
  unfold valid_indices. rewrite filter_cons.
  destruct (Z.ltb_spec i (chunk_count s)); case_decide;
    (reflexivity || lia).
Qed.

Lemma comp_map_run s ps :
  comp_map texts_getitem ps s = (gather (token_split_texts s) ps, s).
Proof.
  induction ps as [|i ps IH]; [reflexivity|].
  cbn [comp_map gather]. rewrite bind_run. unfold texts_getitem at 1.
  destruct (py_getitem (token_split_texts s) i); [|reflexivity].
  rewrite bind_run, IH.
  destruct (gather (token_split_texts s) ps); reflexivity.
Qed.

Lemma retrieve_texts_run q k model s :
  retrieve_texts q k model s = (retrieve_outcome q k model s, s).
Proof.
  unfold retrieve_texts, retrieve_outcome. rewrite bind_run. unfold call at 1.
  destruct (encode model [q]) as [x|e]; [|reflexivity].
  rewrite bind_run. unfold index_search at 1.
  destruct (search (index s) x k) as [[Ds Is]|e]; [|reflexivity].
  rewrite bind_run. unfold call at 1.
  destruct (py_getitem Is 0) as [row|e]; [|reflexivity].
  rewrite bind_run, comp_filter_run, bind_run, comp_map_run.
  destruct (gather _ _); reflexivity.
Qed.

Lemma retrieve_texts_inv q k model s texts d s' :
  retrieve_texts q k model s = (Ok (texts, d), s') →
  ∃ x Is row,
    encode model [q] = Ok x ∧ search (index s) x k = Ok (d, Is) ∧
    py_getitem Is 0 = Ok row ∧
    gather (token_split_texts s) (valid_indices (chunk_count s) row)
    = Ok texts ∧
    s' = s.
Proof.
  rewrite retrieve_texts_run. unfold retrieve_outcome. intros H.
  destruct (encode model [q]) as [x|]; [|inversion H].
  destruct (search (index s) x k) as [[Ds Is]|] eqn:Hs; [|inversion H].
  destruct (py_getitem Is 0) as [row|] eqn:Hr; [|inversion H].
  destruct (gather _ _) as [ts|] eqn:Hg; inversion H; subst.
  exists x, Is, row. auto.
Qed.

End Runs.

(** ** Subscripts and the two comprehensions, without the store *)
Section Lists.
Context {A : Type}.
Implicit Types (l : list A) (ps : list Z) (ts : list A).

Lemma py_getitem_Ok l i x :
  py_getitem l i = Ok x ↔
  0 ≤ py_index (Z.of_nat (length l)) i < Z.of_nat (length l) ∧
  l !! Z.to_nat (py_index (Z.of_nat (length l)) i) = Some x.
Proof.
  unfold py_getitem.
  destruct (Z.ltb_spec (py_index (Z.of_nat (length l)) i) 0);
    destruct (Z.leb_spec (Z.of_nat (length l))
                (py_index (Z.of_nat (length l)) i)); cbn [orb].
  1-3: split; [discriminate | lia].
  destruct (l !! Z.to_nat _) as [y|]; split.
  - intros [= ->]. split; [lia | reflexivity].
  - intros [_ [= ->]]. reflexivity.
  - discriminate.
  - intros [_ [=]].
Qed.

Lemma py_getitem_in_range l i :
  - Z.of_nat (length l) ≤ i < Z.of_nat (length l) →
  ∃ x, py_getitem l i = Ok x.
Proof.
  intros Hi.
  assert (Hj : 0 ≤ py_index (Z.of_nat (length l)) i < Z.of_nat (length l)).
  { unfold py_index. destruct (Z.ltb_spec i 0); lia. }
  destruct (lookup_lt_is_Some_2 l (Z.to_nat (py_index (Z.of_nat (length l)) i)))
    as [x Hx]; [lia|].
  exists x. apply py_getitem_Ok. auto.
Qed.

Lemma gather_Forall2 l ps ts :
  gather l ps = Ok ts ↔ Forall2 (λ i t, py_getitem l i = Ok t) ps ts.
Proof.
  revert ts. induction ps as [|i ps IH]; intros ts; cbn [gather].
  - split; [intros [= <-]; constructor | inversion 1; reflexivity].
  - destruct (py_getitem l i) as [x|e] eqn:Hx.
    + destruct (gather l ps) as [r|e] eqn:Hr; split.
      * intros [= <-]. constructor; [assumption | by apply IH].
      * inversion 1 as [|? t ? r' Ht Hr']; subst.
        apply IH in Hr'. congruence.
      * discriminate.
      * inversion 1 as [|? t ? r' Ht Hr']; subst.
        apply IH in Hr'. discriminate.
    + split; [discriminate | inversion 1; congruence].
Qed.

Lemma gather_length l ps ts : gather l ps = Ok ts → length ts = length ps.
Proof. intros H%gather_Forall2. symmetry. by eapply Forall2_length. Qed.

Lemma gather_in_range l ps :
  Forall (λ i, - Z.of_nat (length l) ≤ i < Z.of_nat (length l)) ps →
  ∃ ts, gather l ps = Ok ts.
Proof.
  induction 1 as [|i ps Hi _ [ts IH]]; [by exists []|].
  destruct (py_getitem_in_range l i Hi) as [x Hx].
  exists (x :: ts). cbn [gather]. by rewrite Hx, IH.
Qed.

End Lists.

Lemma valid_indices_bound n row : Forall (λ i, i < n) (valid_indices n row).
Proof. apply Forall_forall. intros i [Hi _]%list_elem_of_filter. exact Hi. Qed.

Lemma valid_indices_elem n row i :
  i ∈ valid_indices n row ↔ i < n ∧ i ∈ row.
Proof. unfold valid_indices. by rewrite list_elem_of_filter. Qed.

Lemma valid_indices_sublist n row : valid_indices n row `sublist_of` row.
Proof. apply sublist_filter. Qed.

Lemma valid_indices_length n row :
  (length (valid_indices n row) ≤ length row)%nat.
Proof. apply length_filter. Qed.

(** Filtering the hits (distance, position) on the position keeps the
    positions that [valid_indices] keeps. *)
Lemma valid_indices_zip {D} n (ds : list D) row :
  length ds = length row →
  (filter (λ h : D * Z, h.2 < n) (zip ds row)).*2 = valid_indices n row.
Proof.
  revert row. induction ds as [|d ds IH]; intros [|i row] [=]; [done|].
  cbn [zip zip_with]. unfold valid_indices. rewrite !filter_cons. cbn [snd].
  case_decide; cbn [fmap list_fmap]; fold (valid_indices n row);
    by rewrite <- IH.
Qed.

Lemma StronglySorted_sublist {D} (R : relation D) (l1 l2 : list D) :
  l1 `sublist_of` l2 → StronglySorted R l2 → StronglySorted R l1.
Proof.
  intros Hsub. induction Hsub as [|x l1 l2 Hsub IH|x l1 l2 Hsub IH]; intros Hs.
  - constructor.
  - apply StronglySorted_cons in Hs as [Hx Hs].
    apply StronglySorted_cons. split; [|auto].
    apply Forall_forall. intros y Hy. rewrite Forall_forall in Hx.
    apply Hx. by eapply sublist_subseteq.
  - apply StronglySorted_cons in Hs as [_ Hs]. auto.
Qed.

(** ** [retrieve_texts] *)
Section Retrieval.
Context {Embedding Dist : Type}.
Implicit Types (s : Store Embedding Dist) (row : list Z) (texts : list string).
Implicit Types (model : SentenceTransformer Embedding).
Implicit Types (d Ds : list (list Dist)) (Is : list (list Z)).

(** A call changes nothing in the store. *)
Lemma retrieve_texts_store q k model s : (retrieve_texts q k model s).2 = s.
Proof. by rewrite retrieve_texts_run. Qed.

(** When the two external calls return, the search reports a row for the
    query, and every reported position is at least [-len], the call
    returns. *)
Lemma retrieve_texts_returns q k model s x Ds Is row :
  encode model [q] = Ok x →
  search (index s) x k = Ok (Ds, Is) →
  py_getitem Is 0 = Ok row →
  Forall (λ i, - chunk_count s ≤ i) row →
  ∃ texts, retrieve_texts q k model s = (Ok (texts, Ds), s).
Proof.
  intros Hx Hs Hrow Hlow. rewrite retrieve_texts_run. unfold retrieve_outcome.
  rewrite Hx, Hs, Hrow.
  destruct (gather_in_range (token_split_texts s)
              (valid_indices (chunk_count s) row)) as [ts ->]; [|by exists ts].
  apply Forall_forall. intros i [Hi Hin]%list_elem_of_filter.
  rewrite Forall_forall in Hlow. specialize (Hlow i Hin).
  unfold chunk_count in *. lia.
Qed.

(** C2: when the search reports at most [k] positions for a query, the
    call returns at most [k] chunks, and each of them is the chunk of a
    reported position that is below the size of the chunk collection, read
    at a place below that size. *)
Theorem retrieve_texts_at_most_k q k model s texts d s' :
  (∀ x Ds Is, search (index s) x k = Ok (Ds, Is) →
              Forall (λ r, Z.of_nat (length r) ≤ k) Is) →
  retrieve_texts q k model s = (Ok (texts, d), s') →
  Z.of_nat (length texts) ≤ k ∧
  ∃ ps,
    Forall2 (λ i t,
      i < chunk_count s ∧
      py_index (chunk_count s) i < chunk_count s ∧
      token_split_texts s !! Z.to_nat (py_index (chunk_count s) i) = Some t)
      ps texts.
Proof.
  intros Hshape (x & Is & row & Hx & Hs & Hrow & Hg & ->)%retrieve_texts_inv.
  split.
  - apply Hshape in Hs. apply py_getitem_Ok in Hrow as [_ Hrow].
    rewrite Forall_forall in Hs.
    specialize (Hs row (list_elem_of_lookup_2 _ _ _ Hrow)). cbn beta in Hs.
    rewrite (gather_length _ _ _ Hg).
    pose proof (valid_indices_length (chunk_count s) row). lia.
  - exists (valid_indices (chunk_count s) row).
    apply gather_Forall2 in Hg.
    pose proof (valid_indices_bound (chunk_count s) row) as Hb.
    revert Hb. induction Hg as [|i t ps ts Hit _ IH]; [constructor|].
    intros [Hi Hps]%Forall_cons. constructor; [|auto].
    apply py_getitem_Ok in Hit as [Hj Ht]. unfold chunk_count in *.
    split; [lia|]. split; [lia | exact Ht].
Qed.

(** C7: with [k = 0] and an index that refuses a search for no
    neighbour, as FAISS does, the call hands [k] to the search as it is
    and returns no chunk list: it raises, with the exception of the
    embedding model if that one fails, with the exception of the search
    otherwise, and the store is as before. *)
Theorem retrieve_texts_k_zero_rejected q model s :
  rejects_nonpositive_k (index s) →
  ∃ e,
    retrieve_texts q 0 model s = (Raise e, s) ∧
    (encode model [q] = Raise e ∨
     ∃ x, encode model [q] = Ok x ∧ search (index s) x 0 = Raise e).
Proof.
  intros Hrej. rewrite retrieve_texts_run. unfold retrieve_outcome.
  destruct (encode model [q]) as [x|e] eqn:Hx.
  - destruct (Hrej x 0) as [e He]; [lia|].
    exists e. rewrite He. split; [reflexivity|]. right. by exists x.
  - exists e. split; [reflexivity|]. by left.
Qed.

(** C10: the distance array comes back as the search reported it, so a
    position dropped by the bounds test leaves fewer chunks than distance
    entries. *)
Theorem retrieve_texts_distances_unfiltered q k model s texts d s' x Ds Is :
  encode model [q] = Ok x →
  search (index s) x k = Ok (Ds, Is) →
  length Is = 1%nat →
  length <$> Ds = length <$> Is →
  retrieve_texts q k model s = (Ok (texts, d), s') →
  d = Ds ∧
  (length texts ≤ entries d)%nat ∧
  (Exists (λ i, ¬ i < chunk_count s) (concat Is) →
   (length texts < entries d)%nat).
Proof.
  intros Hx Hs Hone Hshape
    (x' & Is' & row & Hx' & Hs' & Hrow & Hg & ->)%retrieve_texts_inv.
  assert (x' = x) as -> by congruence.
  assert (d = Ds ∧ Is' = Is) as [-> ->] by (split; congruence).
  destruct Is as [|row' [|]]; try discriminate.
  destruct Ds as [|drow [|]]; try discriminate.
  injection Hshape as Hlen. injection Hrow as ->.
  unfold entries. cbn [concat]. rewrite !app_nil_r, Hlen.
  rewrite (gather_length _ _ _ Hg). split; [reflexivity|]. split.
  - apply valid_indices_length.
  - intros (i & Hin & Hi)%Exists_exists.
    by apply (length_filter_lt _ _ i).
Qed.

Section Order.
Context (dist_le : relation Dist) `{!Transitive dist_le}.

(** C3: the chunks come back in the order of the hits (distance,
    position) that pass the bounds test, a subsequence of the hits the
    search reported; when the reported distances are non-decreasing, so
    are the distances of the returned chunks. *)
Theorem retrieve_texts_order q k model s texts d s' x Is drow row :
  encode model [q] = Ok x →
  search (index s) x k = Ok (d, Is) →
  py_getitem d 0 = Ok drow →
  py_getitem Is 0 = Ok row →
  length drow = length row →
  retrieve_texts q k model s = (Ok (texts, d), s') →
  let kept := filter (λ h : Dist * Z, h.2 < chunk_count s) (zip drow row) in
  kept `sublist_of` zip drow row ∧
  Forall2 (λ h t, py_getitem (token_split_texts s) h.2 = Ok t) kept texts ∧
  (Sorted dist_le drow → Sorted dist_le kept.*1).
Proof.
  intros Hx Hs Hdrow Hrow Hlen
    (x' & Is' & row' & Hx' & Hs' & Hrow' & Hg & ->)%retrieve_texts_inv kept.
  assert (x' = x) as -> by congruence.
  assert (Is' = Is) as -> by congruence.
  assert (row' = row) as -> by congruence.
  split; [apply sublist_filter|]. split.
  - apply gather_Forall2 in Hg.
    rewrite <- (valid_indices_zip _ drow row Hlen) in Hg.
    by apply Forall2_fmap_l in Hg.
  - intros Hsorted%Sorted_StronglySorted; [|assumption].
    apply StronglySorted_Sorted.
    apply (StronglySorted_sublist _ _ (zip drow row).*1).
    + apply fmap_sublist, sublist_filter.
    + rewrite fst_zip; [assumption | lia].
Qed.

End Order.

End Retrieval.

(** ** [answer_query] *)

(** [str_join] is the join of the standard library. *)
Lemma str_join_concat sep l : str_join sep l = String.concat sep l.
Proof.
  induction l as [|x [|y l] IH]; [reflexivity..|].
  change (str_join sep (x :: y :: l)) with (x +:+ sep +:+ str_join sep (y :: l)).
  by rewrite IH.
Qed.

Section Answering.
Context {Embedding Dist : Type}.
Variable model : SentenceTransformer Embedding.
Variable groq : ChatRequest → result ChatCompletion.
Implicit Types (s : Store Embedding Dist) (texts : list string).
Implicit Types (d : list (list Dist)).

Lemma answer_query_run q k key s :
  answer_query model groq q k key s
  = match retrieve_outcome q k model s with
    | Raise e => (Raise e, s)
    | Ok (texts, _) =>
        (match groq (request_for key texts q) with
         | Raise e => Raise e
         | Ok llm =>
             match py_getitem (choices llm) 0 with
             | Raise e => Raise e
             | Ok choice => Ok (content (message choice))
             end
         end,
         after_request s (request_for key texts q))
    end.
Proof.
  unfold answer_query. rewrite bind_run, retrieve_texts_run.
  destruct (retrieve_outcome q k model s) as [[texts d]|e]; [|reflexivity].
  rewrite bind_run. unfold chat_completions_create at 1.
  change (groq _) with (groq (request_for key texts q)).
  destruct (groq (request_for key texts q)) as [llm|e]; [|reflexivity].
  rewrite bind_run. unfold call at 1.
  destruct (py_getitem (choices llm) 0); reflexivity.
Qed.

Lemma retrieve_outcome_of_run q k s texts d s1 :
  retrieve_texts q k model s = (Ok (texts, d), s1) →
  retrieve_outcome q k model s = Ok (texts, d).
Proof. rewrite retrieve_texts_run. by intros [= ->]. Qed.

(** C4: the context inside the prompt that leaves the process is the
    list of chunks [retrieve_texts] returned, in that order, joined by a
    blank line. *)
Theorem answer_query_context_joined q k key s texts d s1 :
  retrieve_texts q k model s = (Ok (texts, d), s1) →
  ∃ req,
    sent (answer_query model groq q k key s).2 = sent s ++ [req] ∧
    content <$> messages req
    = [instructional_template (String.concat (LF +:+ LF) texts) q].
Proof.
  intros H%retrieve_outcome_of_run. rewrite answer_query_run, H.
  exists (request_for key texts q). split; [reflexivity|].
  cbn [request_for system_request messages fmap list_fmap content].
  by rewrite str_join_concat.
Qed.

(** C5: when the service answers with at least one choice, the value
    returned is the text of the first choice. *)
Theorem answer_query_first_choice q k key s texts d s1 llm choice rest :
  retrieve_texts q k model s = (Ok (texts, d), s1) →
  groq (request_for key texts q) = Ok llm →
  choices llm = choice :: rest →
  (answer_query model groq q k key s).1 = Ok (content (message choice)).
Proof.
  intros H%retrieve_outcome_of_run Hllm Hch.
  by rewrite answer_query_run, H, Hllm, Hch.
Qed.

(** C6: when the service answers with no choice, the subscript of the
    empty choice list raises and no value is returned. *)
Theorem answer_query_no_choice q k key s texts d s1 llm :
  retrieve_texts q k model s = (Ok (texts, d), s1) →
  groq (request_for key texts q) = Ok llm →
  choices llm = [] →
  (answer_query model groq q k key s).1 = Raise IndexError.
Proof.
  intros H%retrieve_outcome_of_run Hllm Hch.
  by rewrite answer_query_run, H, Hllm, Hch.
Qed.

(** C8: a call whose retrieval returns sends exactly one request: one
    message, of role system, whose content is the template filled with the
    joined chunks and the query, for the model llama-3.3-70b-versatile; a
    call whose retrieval raises sends nothing. *)
Theorem answer_query_single_system_message q k key s :
  sent (answer_query model groq q k key s).2
  = sent s ++
    match (retrieve_texts q k model s).1 with
    | Ok (texts, _) =>
        [ {| api_key := key;
             messages :=
               [ {| role := "system";
                    content :=
                      instructional_template
                        (str_join (LF +:+ LF) texts) q |} ];
             model_id := "llama-3.3-70b-versatile" |} ]
    | Raise _ => []
    end.
Proof.
  rewrite answer_query_run, retrieve_texts_run. cbn [fst].
  destruct (retrieve_outcome q k model s) as [[texts d]|e].
  - reflexivity.
  - cbn [snd]. by rewrite app_nil_r.
Qed.

(** C9: neither function writes to the index or to the chunk list. *)
Theorem index_and_chunks_unchanged q k key s :
  index (retrieve_texts q k model s).2 = index s ∧
  token_split_texts (retrieve_texts q k model s).2 = token_split_texts s ∧
  index (answer_query model groq q k key s).2 = index s ∧
  token_split_texts (answer_query model groq q k key s).2
  = token_split_texts s.
Proof.
  rewrite retrieve_texts_store, answer_query_run.
  destruct (retrieve_outcome q k model s) as [[texts d]|e]; done.
Qed.

End Answering.

(** ** The functions on the concrete world *)

(** C1: with two chunks and a search row padded with -1, the position -1
    is not a position of the chunk collection, yet it passes the bounds
    test and is read as the last chunk. *)
Example retrieve_texts_negative_position :
  ¬ (0 ≤ -1 < chunk_count Demo.padded_row) ∧
  valid_indices (chunk_count Demo.padded_row) [1; 0; -1] = [1; 0; -1] ∧
  (retrieve_texts "q" 3 Demo.model Demo.padded_row).1
  = Ok (["beta"; "alpha"; "beta"], [[1; 5; 999]]).
Proof. split; [cbn; lia | split; reflexivity]. Qed.

(** With no chunk at all, the padded position passes the test as well and
    the subscript raises. *)
Example retrieve_texts_negative_position_raises :
  (retrieve_texts "q" 1 Demo.model Demo.nothing_loaded).1 = Raise IndexError.
Proof. reflexivity. Qed.

Lemma retrieve_texts_at_most_k_witness :
  retrieve_texts "q" 3 Demo.model Demo.three_chunks
  = (Ok (["b"; "a"], [[1; 2; 3]]), Demo.three_chunks) ∧
  Z.of_nat (length ["b"; "a"]) ≤ 3 ∧
  ∃ ps,
    Forall2 (λ i t,
      i < chunk_count Demo.three_chunks ∧
      py_index (chunk_count Demo.three_chunks) i
      < chunk_count Demo.three_chunks ∧
      token_split_texts Demo.three_chunks
        !! Z.to_nat (py_index (chunk_count Demo.three_chunks) i) = Some t)
      ps ["b"; "a"].
Proof.
  split; [reflexivity|].
  apply (retrieve_texts_at_most_k "q" 3 Demo.model Demo.three_chunks
           ["b"; "a"] [[1; 2; 3]] Demo.three_chunks).
  - intros x Ds Is [= _ <-]. repeat constructor. cbn. lia.
  - reflexivity.
Defined.

(** With three chunks behind an index that behaves as FAISS does, a call
    with [k = 0] raises: it does not return the empty list of chunks. *)
Lemma retrieve_texts_k_zero_no_empty_list :
  retrieve_texts "q" 0 Demo.model World.flat
  = (Raise (ExternalError "AssertionError"), World.flat) ∧
  ¬ ∃ d s', retrieve_texts "q" 0 Demo.model World.flat = (Ok ([], d), s').
Proof.
  split; [reflexivity|]. intros (d & s' & H). discriminate H.
Qed.

Lemma retrieve_texts_k_zero_rejected_witness :
  ∃ e,
    retrieve_texts "q" 0 Demo.model World.flat = (Raise e, World.flat) ∧
    (encode Demo.model ["q"] = Raise e ∨
     ∃ x, encode Demo.model ["q"] = Ok x ∧
          search (index World.flat) x 0 = Raise e).
Proof.
  apply (retrieve_texts_k_zero_rejected "q" Demo.model World.flat).
  intros x k Hk. exists (ExternalError "AssertionError"). cbn.
  destruct (Z.leb_spec k 0); [reflexivity | lia].
Defined.

Lemma retrieve_texts_distances_unfiltered_witness :
  Exists (λ i, ¬ i < chunk_count Demo.three_chunks) (concat [[1; 5; 0]]) ∧
  [[1; 2; 3]] = [[1; 2; 3]] ∧
  (length ["b"; "a"] ≤ entries [[1; 2; 3]])%nat ∧
  (Exists (λ i, ¬ i < chunk_count Demo.three_chunks) (concat [[1; 5; 0]]) →
   (length ["b"; "a"] < entries [[1; 2; 3]])%nat).
Proof.
  split.
  - apply Exists_cons_tl, Exists_cons_hd. unfold chunk_count. cbn. lia.
  - apply (retrieve_texts_distances_unfiltered "q" 3 Demo.model
             Demo.three_chunks ["b"; "a"] [[1; 2; 3]] Demo.three_chunks tt
             [[1; 2; 3]] [[1; 5; 0]]); reflexivity.
Defined.

Lemma retrieve_texts_order_witness :
  Sorted Z.le [1; 2; 3] ∧
  let kept :=
    filter (λ h : Z * Z, h.2 < chunk_count Demo.three_chunks)
      (zip [1; 2; 3] [1; 5; 0]) in
  kept `sublist_of` zip [1; 2; 3] [1; 5; 0] ∧
  Forall2 (λ h t, py_getitem (token_split_texts Demo.three_chunks) h.2 = Ok t)
    kept ["b"; "a"] ∧
  (Sorted Z.le [1; 2; 3] → Sorted Z.le kept.*1).
Proof.
  split; [repeat constructor; lia|].
  apply (retrieve_texts_order Z.le "q" 3 Demo.model Demo.three_chunks
           ["b"; "a"] [[1; 2; 3]] Demo.three_chunks tt [[1; 5; 0]]
           [1; 2; 3] [1; 5; 0]); reflexivity.
Defined.

Lemma answer_query_context_joined_witness :
  ∃ req,
    sent (answer_query Demo.model (Demo.reply ["hi"; "ho"]) "q" 3 "key"
            Demo.three_chunks).2
    = sent Demo.three_chunks ++ [req] ∧
    content <$> messages req
    = [instructional_template (String.concat (LF +:+ LF) ["b"; "a"]) "q"].
Proof.
  apply (answer_query_context_joined Demo.model (Demo.reply ["hi"; "ho"])
           "q" 3 "key" Demo.three_chunks ["b"; "a"] [[1; 2; 3]]
           Demo.three_chunks).
  reflexivity.
Defined.

Lemma answer_query_first_choice_witness :
  (answer_query Demo.model (Demo.reply ["hi"; "ho"]) "q" 3 "key"
     Demo.three_chunks).1 = Ok "hi".
Proof.
  apply (answer_query_first_choice Demo.model (Demo.reply ["hi"; "ho"])
           "q" 3 "key" Demo.three_chunks ["b"; "a"] [[1; 2; 3]]
           Demo.three_chunks
           {| choices :=
                [ {| message := {| role := "assistant"; content := "hi" |} |};
                  {| message := {| role := "assistant"; content := "ho" |} |} ]
           |}
           {| message := {| role := "assistant"; content := "hi" |} |}
           [ {| message := {| role := "assistant"; content := "ho" |} |} ]);
    reflexivity.
Defined.

Lemma answer_query_no_choice_witness :
  (answer_query Demo.model (Demo.reply []) "q" 3 "key" Demo.three_chunks).1
  = Raise IndexError.
Proof.
  apply (answer_query_no_choice Demo.model (Demo.reply []) "q" 3 "key"
           Demo.three_chunks ["b"; "a"] [[1; 2; 3]] Demo.three_chunks
           {| choices := [] |}); reflexivity.
Defined.

(** * Further properties of the two functions *)

(** ** More on subscripts and joins *)

Lemma py_getitem_Raise {A} (l : list A) i e :
  py_getitem l i = Raise e → e = IndexError.
Proof.
  unfold py_getitem.
  destruct (_ || _); [congruence|]. destruct (l !! _); congruence.
Qed.

Lemma py_getitem_Ok_range {A} (l : list A) i x :
  py_getitem l i = Ok x → - Z.of_nat (length l) ≤ i < Z.of_nat (length l).
Proof.
  intros [Hj _]%py_getitem_Ok. unfold py_index in Hj.
  destruct (Z.ltb_spec i 0); lia.
Qed.

Lemma gather_Raise {A} (l : list A) ps e :
  gather l ps = Raise e → e = IndexError.
Proof.
  induction ps as [|i ps IH]; cbn [gather]; [discriminate|].
  destruct (py_getitem l i) eqn:Hi.
  - destruct (gather l ps); [discriminate|]. intros [= <-]. by apply IH.
  - intros [= <-]. by eapply py_getitem_Raise.
Qed.

Lemma gather_Ok_range {A} (l : list A) ps ts :
  gather l ps = Ok ts →
  Forall (λ i, - Z.of_nat (length l) ≤ i < Z.of_nat (length l)) ps.
Proof.
  intros H%gather_Forall2.
  induction H as [|i t ps ts Hit _ IH]; constructor; [|exact IH].
  by eapply py_getitem_Ok_range.
Qed.

Lemma valid_indices_all n row :
  Forall (λ i, i < n) row → valid_indices n row = row.
Proof.
  induction 1 as [|i row Hi _ IH]; [reflexivity|].
  unfold valid_indices. rewrite filter_cons, decide_True by done.
  f_equal. exact IH.
Qed.

Lemma valid_indices_none n row :
  Forall (λ i, n ≤ i) row → valid_indices n row = [].
Proof.
  induction 1 as [|i row Hi _ IH]; [reflexivity|].
  unfold valid_indices. rewrite filter_cons, decide_False by lia. exact IH.
Qed.

Lemma string_length_app (a b : string) :
  String.length (a +:+ b) = (String.length a + String.length b)%nat.
Proof.
  induction a as [|c a IH]; [reflexivity|].
  cbn [String.length Nat.add]. rewrite <- IH. reflexivity.
Qed.

Lemma str_join_length sep l :
  String.length (str_join sep l)
  = (sum_list (String.length <$> l) + String.length sep * (length l - 1))%nat.
Proof.
  induction l as [|x [|y l] IH]; [cbn; lia | cbn; lia |].
  change (str_join sep (x :: y :: l))
    with (x +:+ sep +:+ str_join sep (y :: l)).
  rewrite !string_length_app, IH. cbn [fmap list_fmap sum_list length].
  unfold id. nia.
Qed.

Lemma instructional_template_length context q :
  String.length (instructional_template context q)
  = (template_overhead + String.length context + String.length q)%nat.
Proof.
  change template_overhead
    with (String.length (instructional_template "" "")).
  unfold instructional_template. rewrite !string_length_app.
  change (String.length "") with 0%nat. lia.
Qed.

(** ** Retrieval: which rows return, and what they return *)
Section RetrievalEdges.
Context {Embedding Dist : Type}.
Implicit Types (s : Store Embedding Dist) (row : list Z) (texts : list string).
Implicit Types (model : SentenceTransformer Embedding).
Implicit Types (d Ds : list (list Dist)) (Is : list (list Z)).

(** X1: once the two external calls have returned a row, the call returns
    when every reported position is at least [-len], however large the
    positions are, and raises [IndexError] when some position is below
    [-len]. *)
Theorem retrieve_texts_returns_or_raises q k model s x Ds Is row :
  encode model [q] = Ok x →
  search (index s) x k = Ok (Ds, Is) →
  py_getitem Is 0 = Ok row →
  (Forall (λ i, - chunk_count s ≤ i) row →
   ∃ texts, retrieve_texts q k model s = (Ok (texts, Ds), s)) ∧
  (Exists (λ i, i < - chunk_count s) row →
   retrieve_texts q k model s = (Raise IndexError, s)).
Proof.
  intros Hx Hs Hrow. split; [by eapply retrieve_texts_returns|].
  intros (i & Hin & Hi)%Exists_exists.
  rewrite retrieve_texts_run. unfold retrieve_outcome. rewrite Hx, Hs, Hrow.
  destruct (gather _ _) as [ts|e] eqn:Hg.
  - apply gather_Ok_range in Hg. rewrite Forall_forall in Hg.
    assert (Hv : i ∈ valid_indices (chunk_count s) row).
    { apply valid_indices_elem. unfold chunk_count in *. split; [lia|done]. }
    specialize (Hg i Hv). unfold chunk_count in Hi. lia.
  - by rewrite (gather_Raise _ _ _ Hg).
Qed.

(** X2: when every reported position is a position of the chunk list, the
    call returns one chunk per reported position, in the reported order:
    nothing is dropped and a position reported twice gives its chunk
    twice. *)
Theorem retrieve_texts_all_valid q k model s x Ds Is row :
  encode model [q] = Ok x →
  search (index s) x k = Ok (Ds, Is) →
  py_getitem Is 0 = Ok row →
  Forall (λ i, 0 ≤ i < chunk_count s) row →
  ∃ texts,
    retrieve_texts q k model s = (Ok (texts, Ds), s) ∧
    Forall2 (λ i t, token_split_texts s !! Z.to_nat i = Some t) row texts.
Proof.
  intros Hx Hs Hrow Hvalid.
  destruct (retrieve_texts_returns q k model s x Ds Is row Hx Hs Hrow)
    as [texts Hrun].
  { eapply Forall_impl; [exact Hvalid|]. cbn. unfold chunk_count. lia. }
  exists texts. split; [exact Hrun|].
  apply retrieve_texts_inv in Hrun
    as (x' & Is' & row' & Hx' & Hs' & Hrow' & Hg & _).
  assert (x' = x) as -> by congruence.
  assert (Is' = Is) as -> by congruence.
  assert (row' = row) as -> by congruence.
  assert (Hall : valid_indices (chunk_count s) row = row).
  { apply valid_indices_all. eapply Forall_impl; [exact Hvalid|]. cbn. lia. }
  rewrite Hall in Hg. apply gather_Forall2 in Hg. clear Hall Hrow Hrow' Hs Hs'.
  revert Hvalid.
  induction Hg as [|i t ps ts Hit _ IH]; [constructor|].
  intros [Hi Hps]%Forall_cons. constructor; [|auto].
  apply py_getitem_Ok in Hit as [_ Ht]. unfold py_index in Ht.
  destruct (Z.ltb_spec i 0); [lia | exact Ht].
Qed.

(** X3: for any row with no position below [-len], the chunks returned
    are those of the positions below [len], each read at the position
    itself when it is not negative and at [len] plus the position when it
    is. *)
Theorem retrieve_texts_positions_read q k model s x Ds Is row :
  encode model [q] = Ok x →
  search (index s) x k = Ok (Ds, Is) →
  py_getitem Is 0 = Ok row →
  Forall (λ i, - chunk_count s ≤ i) row →
  ∃ texts,
    retrieve_texts q k model s = (Ok (texts, Ds), s) ∧
    Forall2 (λ i t,
      token_split_texts s
        !! Z.to_nat (if i <? 0 then chunk_count s + i else i) = Some t)
      (filter (λ i, i < chunk_count s) row) texts.
Proof.
  intros Hx Hs Hrow Hlow.
  destruct (retrieve_texts_returns q k model s x Ds Is row Hx Hs Hrow Hlow)
    as [texts Hrun].
  exists texts. split; [exact Hrun|].
  apply retrieve_texts_inv in Hrun
    as (x' & Is' & row' & Hx' & Hs' & Hrow' & Hg & _).
  assert (x' = x) as -> by congruence.
  assert (Is' = Is) as -> by congruence.
  assert (row' = row) as -> by congruence.
  apply gather_Forall2 in Hg. unfold valid_indices in Hg.
  induction Hg as [|i t ps ts Hit _ IH]; constructor; [|exact IH].
  apply py_getitem_Ok in Hit as [_ Ht]. unfold py_index in Ht.
  unfold chunk_count. destruct (i <? 0); [|exact Ht].
  by rewrite Z.add_comm.
Qed.

End RetrievalEdges.

(** ** Answering: failures, the empty context, successive calls *)
Section AnsweringEdges.
Context {Embedding Dist : Type}.
Variable model : SentenceTransformer Embedding.
Variable groq : ChatRequest → result ChatCompletion.
Implicit Types (s : Store Embedding Dist) (texts : list string).
Implicit Types (d Ds : list (list Dist)) (Is : list (list Z)).

(** The outcome of retrieval reads the index and the chunks only. *)
Lemma retrieve_outcome_store q k s s' :
  index s' = index s → token_split_texts s' = token_split_texts s →
  retrieve_outcome q k model s' = retrieve_outcome q k model s.
Proof.
  intros Hi Ht. unfold retrieve_outcome, chunk_count. by rewrite Hi, Ht.
Qed.

(** X4: an exception of the embedding model or of the index search comes
    out of [retrieve_texts] and of [answer_query] as it is; no request is
    made. *)
Theorem external_failure_propagates q k key s e :
  encode model [q] = Raise e ∨
  (∃ x, encode model [q] = Ok x ∧ search (index s) x k = Raise e) →
  retrieve_texts q k model s = (Raise e, s) ∧
  answer_query model groq q k key s = (Raise e, s).
Proof.
  intros H.
  assert (Hout : retrieve_outcome q k model s = Raise e).
  { unfold retrieve_outcome. destruct H as [-> | (x & -> & ->)]; reflexivity. }
  by rewrite answer_query_run, retrieve_texts_run, Hout.
Qed.

(** X5: an [IndexError] of the chunk lookup comes out of [answer_query]
    too, and again no request is made. *)
Theorem answer_query_lookup_failure q k key s x Ds Is row :
  encode model [q] = Ok x →
  search (index s) x k = Ok (Ds, Is) →
  py_getitem Is 0 = Ok row →
  Exists (λ i, i < - chunk_count s) row →
  answer_query model groq q k key s = (Raise IndexError, s).
Proof.
  intros Hx Hs Hrow (i & Hin & Hi)%Exists_exists.
  rewrite answer_query_run. unfold retrieve_outcome. rewrite Hx, Hs, Hrow.
  destruct (gather _ _) as [ts|e] eqn:Hg.
  - apply gather_Ok_range in Hg. rewrite Forall_forall in Hg.
    assert (Hv : i ∈ valid_indices (chunk_count s) row).
    { apply valid_indices_elem. unfold chunk_count in *. split; [lia|done]. }
    specialize (Hg i Hv). unfold chunk_count in Hi. lia.
  - by rewrite (gather_Raise _ _ _ Hg).
Qed.

(** X6: an exception of the chat service comes out of [answer_query] as
    it is, after the request has left; the index and the chunks are as
    before. *)
Theorem answer_query_remote_failure q k key s texts d s1 e :
  retrieve_texts q k model s = (Ok (texts, d), s1) →
  groq (request_for key texts q) = Raise e →
  answer_query model groq q k key s
  = (Raise e, after_request s (request_for key texts q)).
Proof.
  intros H%retrieve_outcome_of_run Hg. by rewrite answer_query_run, H, Hg.
Qed.

(** X7: when no reported position is below the size of the chunk list
    (in particular when no position is reported), the service is still
    asked, with an empty context, and its first choice is the answer. *)
Theorem answer_query_no_chunk q k key s x Ds Is row :
  encode model [q] = Ok x →
  search (index s) x k = Ok (Ds, Is) →
  py_getitem Is 0 = Ok row →
  Forall (λ i, chunk_count s ≤ i) row →
  sent (answer_query model groq q k key s).2
  = sent s ++ [system_request key (instructional_template "" q)] ∧
  (∀ llm choice rest,
     groq (system_request key (instructional_template "" q)) = Ok llm →
     choices llm = choice :: rest →
     (answer_query model groq q k key s).1 = Ok (content (message choice))).
Proof.
  intros Hx Hs Hrow Hbig.
  assert (Hout : retrieve_outcome q k model s = Ok ([], Ds)).
  { unfold retrieve_outcome.
    by rewrite Hx, Hs, Hrow, (valid_indices_none _ _ Hbig). }
  rewrite answer_query_run, Hout. split; [reflexivity|].
  intros llm choice rest Hllm Hch. cbn [fst].
  change (request_for key [] q)
    with (system_request key (instructional_template "" q)).
  by rewrite Hllm, Hch.
Qed.

(** X8: a call leaves the next call what it would have been: the second
    of two calls in a row returns what it returns on the store before the
    first, and the requests made are those of the first call followed by
    those of the second. *)
Theorem answer_query_twice q1 k1 key1 q2 k2 key2 s :
  ∃ r1 r2,
    sent (answer_query model groq q1 k1 key1 s).2 = sent s ++ r1 ∧
    sent (answer_query model groq q2 k2 key2 s).2 = sent s ++ r2 ∧
    (answer_query model groq q2 k2 key2
       (answer_query model groq q1 k1 key1 s).2).1
    = (answer_query model groq q2 k2 key2 s).1 ∧
    sent (answer_query model groq q2 k2 key2
            (answer_query model groq q1 k1 key1 s).2).2
    = sent s ++ r1 ++ r2.
Proof.
  set (s1 := (answer_query model groq q1 k1 key1 s).2).
  assert (Hs1 : index s1 = index s ∧ token_split_texts s1 = token_split_texts s
                ∧ ∃ r1, sent s1 = sent s ++ r1).
  { subst s1. rewrite answer_query_run.
    destruct (retrieve_outcome q1 k1 model s) as [[texts d]|e]; cbn.
    - split; [done|]. split; [done|]. by eexists.
    - split; [done|]. split; [done|]. exists []. by rewrite app_nil_r. }
  destruct Hs1 as (Hi & Ht & r1 & Hr1). clearbody s1.
  pose proof (retrieve_outcome_store q2 k2 s s1 Hi Ht) as Hout.
  rewrite !answer_query_run, Hout.
  destruct (retrieve_outcome q2 k2 model s) as [[texts d]|e]; cbn.
  - exists r1, [request_for key2 texts q2].
    rewrite Hr1, <- app_assoc. done.
  - exists r1, []. rewrite Hr1, !app_nil_r. done.
Qed.

(** X9: the distances play no part in the answer: two worlds whose
    searches report the same positions at whatever distances, over the
    same chunks, get the same request made and the same answer. *)
Theorem answer_query_ignores_distances q k key s s' x D1 D2 Is :
  token_split_texts s' = token_split_texts s →
  encode model [q] = Ok x →
  search (index s) x k = Ok (D1, Is) →
  search (index s') x k = Ok (D2, Is) →
  (answer_query model groq q k key s').1
  = (answer_query model groq q k key s).1 ∧
  ∃ r,
    sent (answer_query model groq q k key s).2 = sent s ++ r ∧
    sent (answer_query model groq q k key s').2 = sent s' ++ r.
Proof.
  intros Ht Hx Hs Hs'. rewrite !answer_query_run.
  unfold retrieve_outcome, chunk_count. rewrite Hx, Hs, Hs', Ht.
  destruct (py_getitem Is 0) as [row|e]; cbn.
  - destruct (gather _ _) as [ts|e]; cbn.
    + split; [done|]. by eexists.
    + split; [done|]. exists []. by rewrite !app_nil_r.
  - split; [done|]. exists []. by rewrite !app_nil_r.
Qed.

(** X10: nothing bounds the prompt: its length is the length of the
    template, plus the lengths of the retrieved chunks with two
    characters between neighbours, plus the length of the query. *)
Theorem answer_query_prompt_length q k key s texts d s1 :
  retrieve_texts q k model s = (Ok (texts, d), s1) →
  ∃ req msg,
    sent (answer_query model groq q k key s).2 = sent s ++ [req] ∧
    messages req = [msg] ∧
    String.length (content msg)
    = (template_overhead
       + (sum_list (String.length <$> texts) + 2 * (length texts - 1))
       + String.length q)%nat.
Proof.
  intros H%retrieve_outcome_of_run. rewrite answer_query_run, H.
  eexists _, _. split; [reflexivity|]. split; [reflexivity|].
  cbn [content]. by rewrite instructional_template_length, str_join_length.
Qed.

(** X11: a test cell whose retrieval returns and whose request is
    answered prints the heading, a line feed, a blank, the text of the
    first choice and a line feed; the request carries the key of the
    notebook. *)
Theorem test_cell_prints q s texts d s1 llm choice rest :
  retrieve_texts q 5 model s = (Ok (texts, d), s1) →
  groq (request_for "xxx" texts q) = Ok llm →
  choices llm = choice :: rest →
  test_cell model groq q s
  = (Ok ("LLM Answer:" +:+ LF +:+ " " +:+ content (message choice) +:+ LF),
     after_request s (request_for "xxx" texts q)).
Proof.
  intros H%retrieve_outcome_of_run Hllm Hch.
  unfold test_cell. rewrite bind_run, answer_query_run, H.
  unfold groq_api_key. by rewrite Hllm, Hch.
Qed.

End AnsweringEdges.

(** ** The further properties on the concrete worlds *)

Lemma retrieve_texts_returns_or_raises_witness :
  (Forall (λ i, - chunk_count Demo.nothing_loaded ≤ i) [-1] →
   ∃ texts,
     retrieve_texts "q" 1 Demo.model Demo.nothing_loaded
     = (Ok (texts, [[999]]), Demo.nothing_loaded)) ∧
  (Exists (λ i, i < - chunk_count Demo.nothing_loaded) [-1] →
   retrieve_texts "q" 1 Demo.model Demo.nothing_loaded
   = (Raise IndexError, Demo.nothing_loaded)).
Proof.
  apply (retrieve_texts_returns_or_raises "q" 1 Demo.model
           Demo.nothing_loaded tt [[999]] [[-1]] [-1]); reflexivity.
Defined.

Lemma retrieve_texts_all_valid_witness :
  ∃ texts,
    retrieve_texts "q" 3 Demo.model World.all_valid
    = (Ok (texts, [[1; 2; 3]]), World.all_valid) ∧
    Forall2 (λ i t, token_split_texts World.all_valid !! Z.to_nat i = Some t)
      [2; 0; 2] texts.
Proof.
  apply (retrieve_texts_all_valid "q" 3 Demo.model World.all_valid tt
           [[1; 2; 3]] [[2; 0; 2]] [2; 0; 2]); try reflexivity.
  repeat constructor; unfold chunk_count; cbn; lia.
Defined.

Lemma retrieve_texts_positions_read_witness :
  ∃ texts,
    retrieve_texts "q" 3 Demo.model Demo.padded_row
    = (Ok (texts, [[1; 5; 999]]), Demo.padded_row) ∧
    Forall2 (λ i t,
      token_split_texts Demo.padded_row
        !! Z.to_nat (if i <? 0 then chunk_count Demo.padded_row + i else i)
      = Some t)
      (filter (λ i, i < chunk_count Demo.padded_row) [1; 0; -1]) texts.
Proof.
  apply (retrieve_texts_positions_read "q" 3 Demo.model Demo.padded_row tt
           [[1; 5; 999]] [[1; 0; -1]] [1; 0; -1]); try reflexivity.
  repeat constructor; unfold chunk_count; cbn; lia.
Defined.

Lemma external_failure_propagates_witness :
  retrieve_texts "q" 3 World.no_model Demo.three_chunks
  = (Raise (ExternalError "encode"), Demo.three_chunks) ∧
  answer_query World.no_model (Demo.reply ["hi"]) "q" 3 "key"
    Demo.three_chunks
  = (Raise (ExternalError "encode"), Demo.three_chunks).
Proof.
  apply (external_failure_propagates World.no_model (Demo.reply ["hi"])
           "q" 3 "key" Demo.three_chunks (ExternalError "encode")).
  left. reflexivity.
Defined.

Lemma answer_query_lookup_failure_witness :
  answer_query Demo.model (Demo.reply ["hi"]) "q" 1 "key" Demo.nothing_loaded
  = (Raise IndexError, Demo.nothing_loaded).
Proof.
  apply (answer_query_lookup_failure Demo.model (Demo.reply ["hi"]) "q" 1
           "key" Demo.nothing_loaded tt [[999]] [[-1]] [-1]);
    try reflexivity.
  apply Exists_cons_hd. unfold chunk_count. cbn. lia.
Defined.

Lemma answer_query_remote_failure_witness :
  answer_query Demo.model World.outage "q" 3 "key" Demo.three_chunks
  = (Raise (ExternalError "groq"),
     after_request Demo.three_chunks (request_for "key" ["b"; "a"] "q")).
Proof.
  apply (answer_query_remote_failure Demo.model World.outage "q" 3 "key"
           Demo.three_chunks ["b"; "a"] [[1; 2; 3]] Demo.three_chunks);
    reflexivity.
Defined.

Lemma answer_query_no_chunk_witness :
  sent (answer_query Demo.model (Demo.reply ["hi"]) "q" 2 "key"
          World.oversized).2
  = sent World.oversized
    ++ [system_request "key" (instructional_template "" "q")] ∧
  (∀ llm choice rest,
     Demo.reply ["hi"] (system_request "key" (instructional_template "" "q"))
     = Ok llm →
     choices llm = choice :: rest →
     (answer_query Demo.model (Demo.reply ["hi"]) "q" 2 "key"
        World.oversized).1 = Ok (content (message choice))).
Proof.
  apply (answer_query_no_chunk Demo.model (Demo.reply ["hi"]) "q" 2 "key"
           World.oversized tt [[1; 2]] [[4; 3]] [4; 3]); try reflexivity.
  repeat constructor; unfold chunk_count; cbn; lia.
Defined.

Lemma answer_query_ignores_distances_witness :
  (answer_query Demo.model (Demo.reply ["hi"]) "q" 3 "key"
     World.other_distances).1
  = (answer_query Demo.model (Demo.reply ["hi"]) "q" 3 "key"
       Demo.three_chunks).1 ∧
  ∃ r,
    sent (answer_query Demo.model (Demo.reply ["hi"]) "q" 3 "key"
            Demo.three_chunks).2 = sent Demo.three_chunks ++ r ∧
    sent (answer_query Demo.model (Demo.reply ["hi"]) "q" 3 "key"
            World.other_distances).2 = sent World.other_distances ++ r.
Proof.
  apply (answer_query_ignores_distances Demo.model (Demo.reply ["hi"]) "q" 3
           "key" Demo.three_chunks World.other_distances tt [[1; 2; 3]]
           [[7; 8; 9]] [[1; 5; 0]]); reflexivity.
Defined.

Lemma answer_query_prompt_length_witness :
  ∃ req msg,
    sent (answer_query Demo.model (Demo.reply ["hi"]) "q" 3 "key"
            Demo.three_chunks).2 = sent Demo.three_chunks ++ [req] ∧
    messages req = [msg] ∧
    String.length (content msg)
    = (template_overhead
       + (sum_list (String.length <$> ["b"; "a"]) + 2 * (length ["b"; "a"] - 1))
       + String.length "q")%nat.
Proof.
  apply (answer_query_prompt_length Demo.model (Demo.reply ["hi"]) "q" 3
           "key" Demo.three_chunks ["b"; "a"] [[1; 2; 3]] Demo.three_chunks).
  reflexivity.
Defined.

Lemma test_cell_prints_witness :
  test_cell Demo.model (Demo.reply ["hi"]) "q" Demo.three_chunks
  = (Ok ("LLM Answer:" +:+ LF +:+ " " +:+ "hi" +:+ LF),
     after_request Demo.three_chunks (request_for "xxx" ["b"; "a"] "q")).
Proof.
  apply (test_cell_prints Demo.model (Demo.reply ["hi"]) "q"
           Demo.three_chunks ["b"; "a"] [[1; 2; 3]] Demo.three_chunks
           {| choices :=
                [ {| message := {| role := "assistant"; content := "hi" |} |} ]
           |}
           {| message := {| role := "assistant"; content := "hi" |} |} []);
    reflexivity.
Defined.
